(** * Data validation checks of [data-validation/validator.py]

    A shallow embedding of the six validation predicates, the aggregator
    [run_all_validations], the renderer [print_report] and the entry point
    [main], together with the pandas operations they call.

    Conventions.
    - A Python [str] is a [string] (its UTF-8 bytes); the byte-wise
      lexicographic order of [String.compare] is the code-point order
      Python compares strings with.
    - A pandas column ([Series]) is typed: a numeric column or an object
      column of strings, each cell possibly missing (NaN).  Numeric cells
      are integers here; the checks only count and compare them.
    - What a check prints into its message with an f-string is built with
      [+:+]; [str_of_nat] and [str_of_Z] are Python's [str] on integers.
    - [str.lower], [str.upper] and [repr] of a string belong to Python and
      are taken as parameters of the development. *)

From Stdlib Require Import ZArith String Ascii List DecimalString Sorted Permutation.
From stdpp Require Import base gmap sets list strings sorting.

Local Open Scope string_scope.
Local Open Scope list_scope.

(** ** Python values *)

Definition nl : string := String (ascii_of_nat 10) EmptyString.

Definition str_of_nat (n : nat) : string :=
  NilEmpty.string_of_uint (Nat.to_uint n).

Definition str_of_Z (z : Z) : string :=
  NilZero.string_of_int (Z.to_int z).

(** ["=" * n] *)
Fixpoint str_repeat (s : string) (n : nat) : string :=
  match n with
  | O => ""
  | S n' => s +:+ str_repeat s n'
  end.

(** [sep.join(l)] *)
Definition str_join (sep : string) (l : list string) : string :=
  String.concat sep l.


(** ** Exceptions *)

Record exn := Exn { exn_class : string; exn_msg : string }.

Inductive result (A : Type) : Type :=
| Ok (a : A)
| Raise (e : exn).

Arguments Ok {A} a.
Arguments Raise {A} e.

Definition bind {A B} (r : result A) (k : A -> result B) : result B :=
  match r with
  | Ok a => k a
  | Raise e => Raise e
  end.

Notation "x <- r ;; k" := (bind r (fun x => k))
  (at level 100, r at next level, right associativity).

(** ** pandas: Series and DataFrame *)

(** A column.  [None] is a missing cell (NaN).  [read_csv] gives every
    column one type: a column whose present values all read as numbers
    is numeric, and so is a column with rows but no value at all; a
    column with some other text, or of a file without rows, holds
    strings. *)
Inductive series :=
| SNum (l : list (option Z))
| SStr (l : list (option string)).

Inductive cell :=
| CNull
| CNum (z : Z)
| CStr (s : string).

Global Instance cell_eq_dec : EqDecision cell.
Proof. solve_decision. Defined.

Definition cells (s : series) : list cell :=
  match s with
  | SNum l => map (fun c => match c with Some z => CNum z | None => CNull end) l
  | SStr l => map (fun c => match c with Some x => CStr x | None => CNull end) l
  end.

Definition series_len (s : series) : nat := length (cells s).

(** [df_len] is [len(df)], the length of the index; [df_cols] the columns
    in file order. *)
Record DataFrame := {
  df_len : nat;
  df_cols : list (string * series)
}.

(** [df.columns] *)
Definition df_columns (df : DataFrame) : list string := map fst (df_cols df).

Fixpoint assoc_get {A} (k : string) (l : list (string * A)) : option A :=
  match l with
  | [] => None
  | (k', v) :: l' => if String.eqb k k' then Some v else assoc_get k l'
  end.

(** [df[column]], [None] when [column not in df.columns] *)
Definition df_get (df : DataFrame) (column : string) : option series :=
  assoc_get column (df_cols df).

(** What [read_csv] guarantees of the frame it returns: at least one
    column, unique column names, and every column as long as the index. *)
Definition Dataset (df : DataFrame) : Prop :=
  df_cols df <> [] /\
  NoDup (df_columns df) /\
  Forall (fun c => series_len (snd c) = df_len df) (df_cols df).

(** [s.isna().sum()] *)
Definition null_count (s : series) : nat :=
  length (filter (fun c => c = CNull) (cells s)).

(** Row [i] of the frame, one cell per column. *)
Definition row (df : DataFrame) (i : nat) : list cell :=
  map (fun c => nth i (cells (snd c)) CNull) (df_cols df).

Definition rows (df : DataFrame) : list (list cell) :=
  map (row df) (seq 0 (df_len df)).

(** [df.empty]: some axis has length zero *)
Definition df_empty (df : DataFrame) : bool :=
  (df_len df =? 0)%nat || (length (df_cols df) =? 0)%nat.

(** The marks of [duplicated(keep='first')] over a list of rows: a row is
    marked when an equal row stands before it; missing cells are equal to
    each other. *)
Fixpoint duplicated_from (seen l : list (list cell)) : list bool :=
  match l with
  | [] => []
  | r :: l' => bool_decide (r ∈ seen) :: duplicated_from (r :: seen) l'
  end.

(** [df.duplicated()]; an empty frame gives the empty boolean Series. *)
Definition duplicated (df : DataFrame) : list bool :=
  if df_empty df then [] else duplicated_from [] (rows df).

(** [mask.sum()] and [len(df[mask])] *)
Definition count_true (mask : list bool) : nat :=
  length (filter (fun b => b = true) mask).

Global Instance series_eq_dec : EqDecision series.
Proof. solve_decision. Defined.

(** [a.equals(b)]: same type, same length, equal cell by cell, missing
    cells at the same places counting as equal. *)
Definition series_equals (a b : series) : bool := bool_decide (a = b).

(** [sort_values(ascending=...)] on the values, as pandas' [nargsort]
    orders them: the present values are sorted (descending is the reverse
    of a sort of the reversed values) and the missing ones are placed
    last.  [merge_sort] stands for numpy's sort. *)
Section nargsort.
Context {A : Type} (R : relation A) `{!RelDecision R}.

Definition non_nans (l : list (option A)) : list A := omap id l.

Definition nans (l : list (option A)) : list (option A) :=
  filter (fun c => ~ is_Some c) l.

Definition sort_cells (ascending : bool) (l : list (option A)) : list (option A) :=
  let sorted :=
    if ascending then merge_sort R (non_nans l)
    else reverse (merge_sort R (reverse (non_nans l))) in
  map Some sorted ++ nans l.
End nargsort.

(** The order of the values with the missing ones last: what
    non-decreasing means for a column. *)
Definition opt_le {A : Type} (R : relation A) (a b : option A) : Prop :=
  match a, b with
  | Some x, Some y => R x y
  | _, None => True
  | None, Some _ => False
  end.

(** [s.sort_values(ascending=...)]. Python's [<=] on [str] is [String.le],
    the order of [String.leb]. *)
Definition sort_values (ascending : bool) (s : series) : series :=
  match s with
  | SNum l => SNum (sort_cells Z.le ascending l)
  | SStr l => SStr (sort_cells String.le ascending l)
  end.

(** ** The checks *)

Definition CheckResult : Type := bool * string.

(** Python's rendering of a set of strings, [{'a', 'b'}]. The order in
    which Python iterates over a set is not specified; [elements] fixes
    one, and no statement below depends on it. *)
Definition set_str (repr : string -> string) (s : gset string) : string :=
  "{" +:+ str_join ", " (map repr (elements s)) +:+ "}".

Definition expected_names : list string :=
  ["id"; "name"; "email"; "age"; "salary"; "department"; "status"].

Definition expected_columns : gset string := list_to_set expected_names.

Section Checks.
(** [str.lower], [str.upper] and [repr] on [str] *)
Variable str_lower : string -> string.
Variable str_upper : string -> string.
Variable str_repr : string -> string.

(** [s.str]: the accessor refuses a column that does not hold strings.
    (The text of the message varies with the version of pandas.) *)
Definition str_accessor (s : series) : result (list (option string)) :=
  match s with
  | SStr l => Ok l
  | SNum _ =>
      Raise (Exn "AttributeError" "Can only use .str accessor with string values!")
  end.

(** [s.str.lower()]: a missing cell stays missing *)
Definition series_lower (l : list (option string)) : list (option string) :=
  map (option_map str_lower) l.

(** [a != b] cell by cell; a missing cell differs from everything *)
Definition cell_ne (a b : option string) : bool :=
  match a, b with
  | Some x, Some y => negb (String.eqb x y)
  | _, _ => true
  end.

Fixpoint series_ne (a b : list (option string)) : list bool :=
  match a, b with
  | x :: a', y :: b' => cell_ne x y :: series_ne a' b'
  | _, _ => []
  end.

Definition validate_text_case (df : DataFrame) (column : string)
  : result CheckResult :=
  match df_get df column with
  | None => Ok (false, "Column '" +:+ column +:+ "' not found in dataset")
  | Some s =>
      l <- str_accessor s ;;
      let non_lowercase := series_ne (series_lower l) l in
      if (0 <? count_true non_lowercase)%nat then
        Ok (false, "Found " +:+ str_of_nat (count_true non_lowercase)
                   +:+ " rows with non-lowercase " +:+ column)
      else
        Ok (true, "✓ All " +:+ column +:+ " values are lowercase")
  end.

(** One turn of the loop of [validate_no_nulls] on
    [(results, all_valid)]. *)
Definition no_nulls_step (df : DataFrame) (st : list string * bool)
    (col : string) : list string * bool :=
  let '(results, all_valid) := st in
  match df_get df col with
  | None => (results ++ ["Column '" +:+ col +:+ "' not found"], false)
  | Some s =>
      if (0 <? null_count s)%nat then
        (results ++ ["✗ " +:+ col +:+ ": " +:+ str_of_nat (null_count s)
                     +:+ " NULL values found"], false)
      else
        (results ++ ["✓ " +:+ col +:+ ": No NULL values"], all_valid)
  end.

Definition validate_no_nulls (df : DataFrame) (columns : list string)
  : CheckResult :=
  let '(results, all_valid) := fold_left (no_nulls_step df) columns ([], true) in
  (all_valid, str_join nl results).

Definition validate_no_duplicates (df : DataFrame) : CheckResult :=
  let duplicates := duplicated df in
  let duplicate_count := count_true duplicates in
  if (0 <? duplicate_count)%nat then
    (false, "✗ Found " +:+ str_of_nat duplicate_count +:+ " duplicate rows")
  else
    (true, "✓ No duplicate rows (total: " +:+ str_of_nat (df_len df) +:+ " rows)").

Definition validate_sorted (df : DataFrame) (column : string)
    (ascending : bool) : CheckResult :=
  match df_get df column with
  | None => (false, "Column '" +:+ column +:+ "' not found in dataset")
  | Some s =>
      let sorted_values := sort_values ascending s in
      let actual_values := s in
      if series_equals sorted_values actual_values then
        let direction := if ascending then "ascending" else "descending" in
        (true, "✓ Data is sorted by " +:+ column +:+ " (" +:+ direction +:+ ")")
      else
        (false, "✗ Data is NOT sorted by " +:+ column)
  end.

Definition validate_row_count (df : DataFrame) (expected_min expected_max : Z)
  : CheckResult :=
  let actual := Z.of_nat (df_len df) in
  let range := str_of_Z expected_min +:+ "-" +:+ str_of_Z expected_max in
  if (expected_min <=? actual)%Z && (actual <=? expected_max)%Z then
    (true, "✓ Row count: " +:+ str_of_nat (df_len df)
           +:+ " (expected " +:+ range +:+ ")")
  else
    (false, "✗ Row count: " +:+ str_of_nat (df_len df)
            +:+ " (expected " +:+ range +:+ ")").

Definition validate_schema (df : DataFrame) : CheckResult :=
  let actual_columns : gset string := list_to_set (df_columns df) in
  if bool_decide (expected_columns = actual_columns) then
    (true, "✓ Schema matches: " +:+ str_of_nat (size actual_columns) +:+ " columns")
  else
    let missing := expected_columns ∖ actual_columns in
    let extra := actual_columns ∖ expected_columns in
    let msg := "✗ Schema mismatch:" in
    let msg :=
      if bool_decide (missing = ∅) then msg
      else msg +:+ nl +:+ "  Missing: " +:+ set_str str_repr missing in
    let msg :=
      if bool_decide (extra = ∅) then msg
      else msg +:+ nl +:+ "  Extra: " +:+ set_str str_repr extra in
    (false, msg).

(** ** The aggregator *)

(** The dict of results, in insertion order.  The entries are evaluated
    in the order written, and an exception of one ends the call. *)
Definition run_all_validations (df : DataFrame)
  : result (list (string * CheckResult)) :=
  let schema := validate_schema df in
  let row_count := validate_row_count df 24 25 in
  text_case <- validate_text_case df "status" ;;
  let no_nulls := validate_no_nulls df ["age"; "salary"] in
  let no_duplicates := validate_no_duplicates df in
  let sorted := validate_sorted df "name" true in
  Ok [("schema", schema); ("row_count", row_count); ("text_case", text_case);
      ("no_nulls", no_nulls); ("no_duplicates", no_duplicates);
      ("sorted", sorted)].

(** One turn of the loop of [print_report] on the lines printed so far
    and [all_passed]. *)
Definition report_step (st : list string * bool)
    (entry : string * CheckResult) : list string * bool :=
  let '(out, all_passed) := st in
  let '(check_name, (passed, message)) := entry in
  let status := if passed then "PASS" else "FAIL" in
  (out ++ ["[" +:+ status +:+ "] " +:+ str_upper check_name;
           "       " +:+ message +:+ nl],
   if negb passed then false else all_passed).

(** The arguments of the successive calls of [print], and the value
    returned once they are all written. Between two calls the function
    only computes; what a call that raises leaves undone is in
    [main_try]. *)
Definition print_report (results : list (string * CheckResult))
  : list string * bool :=
  let out := [nl +:+ str_repeat "=" 60;
              "RHOMBUS AI DATA VALIDATION REPORT";
              str_repeat "=" 60 +:+ nl] in
  let '(out, all_passed) := fold_left report_step results (out, true) in
  let out := out ++ [str_repeat "=" 60] in
  let out :=
    if all_passed then out ++ ["OVERALL: ✓ ALL VALIDATIONS PASSED"]
    else out ++ ["OVERALL: ✗ SOME VALIDATIONS FAILED"] in
  (out ++ [str_repeat "=" 60 +:+ nl], all_passed).

(** ** Loader and entry point *)

(** [os.path.exists] and [pd.read_csv], the file system seen from the
    program. *)
Variable path_exists : string -> bool.
Variable read_csv : string -> result DataFrame.

Definition load_csv (filepath : string) : result DataFrame :=
  if negb (path_exists filepath) then
    Raise (Exn "FileNotFoundError" ("File not found: " +:+ filepath))
  else read_csv filepath.

Definition usage : list string :=
  ["Usage: python validator.py <path_to_cleaned_csv>";
   "Example: python validator.py ../test-results/downloads/cleaned_data.csv"].

(** [sys.stdout]: [stdout_error s] is the exception that writing [s]
    raises, if any; a stream whose encoding lacks a character of [s]
    raises [UnicodeEncodeError] and writes nothing of [s]. *)
Variable stdout_error : string -> option exn.

(** [print(s)] after the lines [out]: the lines written, and the
    exception if the call raised. *)
Definition print (out : list string) (s : string) : list string * result unit :=
  match stdout_error s with
  | None => (out ++ [s], Ok tt)
  | Some e => (out, Raise e)
  end.

(** Successive calls of [print], up to the first that raises. *)
Fixpoint print_all (out : list string) (lines : list string)
  : list string * result unit :=
  match lines with
  | [] => (out, Ok tt)
  | s :: lines' =>
      match print out s with
      | (out', Ok _) => print_all out' lines'
      | (out', Raise e) => (out', Raise e)
      end
  end.

Definition loading_line (filepath : string) : string :=
  nl +:+ "Loading: " +:+ filepath.

Definition loaded_line (df : DataFrame) : string :=
  "Loaded " +:+ str_of_nat (df_len df) +:+ " rows, "
  +:+ str_of_nat (length (df_columns df)) +:+ " columns".

Definition error_line (e : exn) : string := nl +:+ "ERROR: " +:+ exn_msg e.

(** The body of the [try] block: the lines written before it ended, and
    either the status given to [sys.exit] or the exception raised, by
    the loader, by a check or by a [print]. *)
Definition main_try (filepath : string) : list string * result Z :=
  match print [] (loading_line filepath) with
  | (out, Raise e) => (out, Raise e)
  | (out, Ok _) =>
      match load_csv filepath with
      | Raise e => (out, Raise e)
      | Ok df =>
          match print out (loaded_line df) with
          | (out, Raise e) => (out, Raise e)
          | (out, Ok _) =>
              match run_all_validations df with
              | Raise e => (out, Raise e)
              | Ok results =>
                  let '(lines, all_passed) := print_report results in
                  match print_all out lines with
                  | (out, Raise e) => (out, Raise e)
                  | (out, Ok _) => (out, Ok (if all_passed then 0 else 1)%Z)
                  end
              end
          end
      end
  end.

(** [main] on [sys.argv]: the lines written to [sys.stdout] and the exit
    status. The handler catches what the [try] block raised; an
    exception raised outside the block, or by the [print] of the
    handler, is not caught and ends the process with status 1. *)
Definition main (argv : list string) : list string * Z :=
  if (length argv <? 2)%nat then (fst (print_all [] usage), 1%Z)
  else
    let filepath := nth 1 argv "" in
    match main_try filepath with
    | (out, Ok status) => (out, status)
    | (out, Raise e) => (fst (print out (error_line e)), 1%Z)
    end.

End Checks.

(** ** Concrete instances, for running the model

    The ASCII part of [str.lower] and [str.upper], and [repr] on strings
    that need no escaping. *)

Definition ascii_lower_char (c : ascii) : ascii :=
  let n := nat_of_ascii c in
  if (65 <=? n)%nat && (n <=? 90)%nat then ascii_of_nat (n + 32) else c.

Definition ascii_upper_char (c : ascii) : ascii :=
  let n := nat_of_ascii c in
  if (97 <=? n)%nat && (n <=? 122)%nat then ascii_of_nat (n - 32) else c.

Fixpoint str_map (f : ascii -> ascii) (s : string) : string :=
  match s with
  | EmptyString => EmptyString
  | String c s' => String (f c) (str_map f s')
  end.

Definition ascii_lower : string -> string := str_map ascii_lower_char.
Definition ascii_upper : string -> string := str_map ascii_upper_char.
Definition quote_repr (s : string) : string := "'" +:+ s +:+ "'".

(** A file system with one readable file. *)
Definition one_file (path : string) : string -> bool :=
  fun p => String.eqb p path.

Definition one_file_csv (path : string) (df : DataFrame) : string -> result DataFrame :=
  fun p =>
    if String.eqb p path then Ok df
    else Raise (Exn "FileNotFoundError" "No such file or directory").

(** A standard output that takes every string (UTF-8), and one that
    takes ASCII only; the text of its error, which names the character
    and its position, is abridged. *)
Definition utf8_stdout : string -> option exn := fun _ => None.

Fixpoint is_ascii (s : string) : bool :=
  match s with
  | EmptyString => true
  | String c s' => (nat_of_ascii c <? 128)%nat && is_ascii s'
  end.

Definition ascii_stdout : string -> option exn :=
  fun s =>
    if is_ascii s then None
    else Some (Exn "UnicodeEncodeError"
                 "'ascii' codec can't encode character: ordinal not in range(128)").

(** Sample frames. [letters n] are the one-letter names ["a"], ["b"], ... *)
Definition letters (n : nat) : list (option string) :=
  map (fun i => Some (String (ascii_of_nat (97 + i)) EmptyString)) (seq 0 n).

Definition numbers (n : nat) : list (option Z) :=
  map (fun i => Some (Z.of_nat (S i))) (seq 0 n).

(** A cleaned file of [n] rows. *)
Definition cleaned_df (n : nat) : DataFrame :=
  {| df_len := n;
     df_cols :=
       [("id", SNum (numbers n));
        ("name", SStr (letters n));
        ("email", SStr (letters n));
        ("age", SNum (numbers n));
        ("salary", SNum (numbers n));
        ("department", SStr (replicate n (Some "HR")));
        ("status", SStr (replicate n (Some "active")))] |}.

(** The same file with a [status] column of numbers. *)
Definition numeric_status_df (n : nat) : DataFrame :=
  {| df_len := n;
     df_cols :=
       [("id", SNum (numbers n));
        ("name", SStr (letters n));
        ("email", SStr (letters n));
        ("age", SNum (numbers n));
        ("salary", SNum (numbers n));
        ("department", SStr (replicate n (Some "HR")));
        ("status", SNum (numbers n))] |}.

(** Three rows, the third a copy of the first, a missing [age], a missing
    [status] and an upper-case one. *)
Definition messy_df : DataFrame :=
  {| df_len := 3;
     df_cols :=
       [("name", SStr [Some "bob"; Some "al"; Some "bob"]);
        ("age", SNum [None; Some 30%Z; None]);
        ("status", SStr [Some "Active"; None; Some "Active"])] |}.

(** ** Notions used in the statements *)

(** The values of a column, read in row order, never decrease; the
    missing ones come last, as the sort places them. *)
Definition nondecreasing (s : series) : Prop :=
  match s with
  | SNum l => Sorted (opt_le Z.le) l
  | SStr l => Sorted (opt_le String.le) l
  end.

(** Rows [i] and [j] hold the same cell in every column. *)
Definition same_row (df : DataFrame) (i j : nat) : Prop :=
  forall c s, (c, s) ∈ df_cols df ->
    nth i (cells s) CNull = nth j (cells s) CNull.

(** The number of rows beyond the first of each group of identical rows:
    all rows less the distinct ones. *)
Definition surplus_rows (l : list (list cell)) : nat :=
  length l - length (remove_dups l).

(** Counting the cells of a column that satisfy a test. *)
Definition count_if {A : Type} (f : A -> bool) (l : list A) : nat :=
  length (List.filter f l).

Definition is_missing (c : option string) : bool :=
  match c with
  | None => true
  | Some _ => false
  end.

(** A string that differs from its lower-case form. *)
Definition not_lowercase (str_lower : string -> string) (c : option string) : bool :=
  match c with
  | Some x => negb (String.eqb (str_lower x) x)
  | None => false
  end.

(** The six checks of the aggregator all return and pass. *)
Definition all_checks_pass (str_lower str_repr : string -> string)
    (df : DataFrame) : Prop :=
  fst (validate_schema str_repr df) = true /\
  fst (validate_row_count df 24 25) = true /\
  (exists m, validate_text_case str_lower df "status" = Ok (true, m)) /\
  fst (validate_no_nulls df ["age"; "salary"]) = true /\
  fst (validate_no_duplicates df) = true /\
  fst (validate_sorted df "name" true) = true.

(** The values of a column never increase, the missing ones last. *)
Definition nonincreasing (s : series) : Prop :=
  match s with
  | SNum l => Sorted (opt_le (flip Z.le)) l
  | SStr l => Sorted (opt_le (flip String.le)) l
  end.

(** Every cell of a column of strings is present and in lower case. *)
Definition all_lowercase (str_lower : string -> string)
    (l : list (option string)) : Prop :=
  forall c, c ∈ l -> exists x, c = Some x /\ str_lower x = x.

(** A missing cell, whatever the type of the column. *)
Definition is_none {A : Type} (c : option A) : bool :=
  match c with
  | None => true
  | Some _ => false
  end.

(** No cell of the column is missing. *)
Definition no_missing (s : series) : Prop :=
  match s with
  | SNum l => None ∉ l
  | SStr l => None ∉ l
  end.

(** The number of missing cells of the column. *)
Definition missing_cells (s : series) : nat :=
  match s with
  | SNum l => count_if is_none l
  | SStr l => count_if is_none l
  end.





(** ** The test suite of [test_validation.py]

    A test is modelled by the value of the condition it asserts, or by
    the exception raised before the [assert] is reached. *)

(** [df[column]] without a guard: a missing column raises [KeyError],
    whose text is the [repr] of the name. *)
Definition df_getitem (str_repr : string -> string) (df : DataFrame)
    (column : string) : result series :=
  match df_get df column with
  | Some s => Ok s
  | None => Raise (Exn "KeyError" (str_repr column))
  end.

(** [s.unique()]: the values in order of first appearance, a missing
    value being one of them. *)
Fixpoint unique_from {A : Type} `{EqDecision A} (seen l : list A) : list A :=
  match l with
  | [] => []
  | x :: l' =>
      if bool_decide (x ∈ seen) then unique_from seen l'
      else x :: unique_from (x :: seen) l'
  end.

Definition unique {A : Type} `{EqDecision A} (l : list A) : list A :=
  unique_from [] l.

Section Tests.
Variable str_lower : string -> string.
Variable str_repr : string -> string.

(** [class TestCleanedDataValidation] *)

Definition test_schema_matches_expected (cleaned_df : DataFrame) : result bool :=
  Ok (fst (validate_schema str_repr cleaned_df)).

Definition test_row_count_after_deduplication (cleaned_df : DataFrame)
  : result bool :=
  Ok (fst (validate_row_count cleaned_df 24 24)).

Definition test_status_is_lowercase (cleaned_df : DataFrame) : result bool :=
  r <- validate_text_case str_lower cleaned_df "status" ;;
  Ok (fst r).

Definition test_age_has_no_nulls (cleaned_df : DataFrame) : result bool :=
  Ok (fst (validate_no_nulls cleaned_df ["age"])).

Definition test_salary_has_no_nulls (cleaned_df : DataFrame) : result bool :=
  Ok (fst (validate_no_nulls cleaned_df ["salary"])).

Definition test_no_duplicate_rows (cleaned_df : DataFrame) : result bool :=
  Ok (fst (validate_no_duplicates cleaned_df)).

Definition test_sorted_by_name (cleaned_df : DataFrame) : result bool :=
  Ok (fst (validate_sorted cleaned_df "name" true)).

(** [set(...).issubset(valid_values)]; a missing value is in no set of
    strings. *)
Definition issubset (values : list (option string)) (valid : list string) : bool :=
  forallb (fun c => match c with
                    | Some x => bool_decide (x ∈ valid)
                    | None => false
                    end) values.

Definition test_status_values_are_valid (cleaned_df : DataFrame) : result bool :=
  let valid_values := ["active"; "inactive"] in
  s <- df_getitem str_repr cleaned_df "status" ;;
  l <- str_accessor s ;;
  let actual_values := unique (series_lower str_lower l) in
  Ok (issubset actual_values valid_values).

(** The seven tests of the class that call a validator. *)
Definition validator_tests (cleaned_df : DataFrame) : list (result bool) :=
  [test_schema_matches_expected cleaned_df;
   test_row_count_after_deduplication cleaned_df;
   test_status_is_lowercase cleaned_df;
   test_age_has_no_nulls cleaned_df;
   test_salary_has_no_nulls cleaned_df;
   test_no_duplicate_rows cleaned_df;
   test_sorted_by_name cleaned_df].

(** [class TestMessyDataValidation] *)

Definition test_messy_has_expected_rows (messy_df : DataFrame) : result bool :=
  Ok (df_len messy_df =? 25)%nat.

Definition test_messy_has_null_ages (messy_df : DataFrame) : result bool :=
  s <- df_getitem str_repr messy_df "age" ;;
  Ok (0 <? null_count s)%nat.

Definition test_messy_has_null_salaries (messy_df : DataFrame) : result bool :=
  s <- df_getitem str_repr messy_df "salary" ;;
  Ok (0 <? null_count s)%nat.

Definition test_messy_has_duplicates (messy_df : DataFrame) : result bool :=
  Ok (0 <? count_true (duplicated messy_df))%nat.

(** [class TestDataIntegrity] *)

(** A value of any type is in a set of strings only if it is one of
    them. *)
Definition cells_issubset (values : list cell) (valid : list string) : bool :=
  forallb (fun c => match c with
                    | CStr x => bool_decide (x ∈ valid)
                    | _ => false
                    end) values.

Definition test_department_values (messy_df : DataFrame) : result bool :=
  let valid_depts := ["Engineering"; "Marketing"; "HR"; "Sales"] in
  s <- df_getitem str_repr messy_df "department" ;;
  let actual_depts := unique (cells s) in
  Ok (cells_issubset actual_depts valid_depts).

End Tests.

(** * Properties *)

(** A closed decidable proposition, settled by evaluation. *)
Ltac by_decide :=
  match goal with
  | |- ?P => apply (bool_decide_unpack P); vm_compute; exact I
  end.

(** ** Sorting a column *)

Section nargsort_facts.
Context {A : Type} (R : relation A) `{!RelDecision R}.
Context `{!Transitive R, !Total R, !AntiSymm (=) R}.

Lemma nans_all_missing (l : list (option A)) : Forall (fun c => c = None) (nans l).
Proof.
  unfold nans. apply Forall_forall. intros c Hc.
  apply list_elem_of_filter in Hc as [Hc _].
  destruct c as [x|]; [|reflexivity].
  exfalso. apply Hc. eauto.
Qed.

Lemma sorted_values_then_missing (s : list A) (n : list (option A)) :
  Sorted R s -> Forall (fun c => c = None) n ->
  Sorted (opt_le R) (map Some s ++ n).
Proof.
  intros Hs Hn. induction Hs as [|x s Hs IH Hhd]; simpl.
  - induction Hn as [|c n Hc Hn IHn]; [constructor|].
    subst c. constructor; [exact IHn|].
    destruct Hn; constructor; subst; exact I.
  - constructor; [exact IH|].
    destruct Hhd as [|y s' Hxy]; simpl.
    + destruct Hn as [|c n Hc Hn]; constructor. subst c. exact I.
    + constructor. exact Hxy.
Qed.

Lemma sort_cells_sorted (l : list (option A)) :
  Sorted (opt_le R) (sort_cells R true l).
Proof.
  unfold sort_cells. apply sorted_values_then_missing.
  - apply Sorted_merge_sort; apply _.
  - apply nans_all_missing.
Qed.

Lemma missing_then_missing (l : list (option A)) :
  Sorted (opt_le R) (None :: l) -> Forall (fun c => c = None) l.
Proof.
  induction l as [|c l IH]; intros Hs; [constructor|].
  apply Sorted_inv in Hs as [Hs Hhd].
  apply HdRel_inv in Hhd.
  destruct c as [x|]; [destruct Hhd|].
  constructor; [reflexivity|]. apply IH, Hs.
Qed.

Lemma all_missing_split (l : list (option A)) :
  Forall (fun c => c = None) l -> non_nans l = [] /\ nans l = l.
Proof.
  induction 1 as [|c l Hc Hl [IH1 IH2]]; [split; reflexivity|].
  subst c. split; [exact IH1|].
  unfold nans in *. rewrite filter_cons_True.
  - f_equal. exact IH2.
  - intros [x Hx]. discriminate.
Qed.

Lemma nans_cons_value (x : A) (l : list (option A)) :
  nans (Some x :: l) = nans l.
Proof.
  unfold nans. rewrite filter_cons_False; [reflexivity|].
  intros H. apply H. eauto.
Qed.

Lemma sorted_split (l : list (option A)) :
  Sorted (opt_le R) l ->
  l = map Some (non_nans l) ++ nans l /\ Sorted R (non_nans l).
Proof.
  induction l as [|c l IH]; intros Hs.
  - split; [reflexivity|constructor].
  - destruct c as [x|].
    + pose proof Hs as Hs0.
      apply Sorted_inv in Hs as [Hs Hhd].
      destruct (IH Hs) as [Heq Hsorted].
      rewrite nans_cons_value. simpl. split.
      * f_equal. exact Heq.
      * constructor; [exact Hsorted|].
        destruct l as [|[y|] l']; simpl.
        -- constructor.
        -- constructor. apply HdRel_inv in Hhd. exact Hhd.
        -- apply missing_then_missing in Hs.
           destruct (all_missing_split _ Hs) as [-> _]. constructor.
    + apply missing_then_missing in Hs.
      destruct (all_missing_split (None :: l)) as [Hv Hn].
      { constructor; [reflexivity|exact Hs]. }
      rewrite Hv, Hn. split; [reflexivity|constructor].
Qed.

(** A column equals its ascending sort exactly when it is
    non-decreasing, missing cells last. *)
Lemma sort_cells_fixed (l : list (option A)) :
  sort_cells R true l = l <-> Sorted (opt_le R) l.
Proof.
  split.
  - intros H. rewrite <- H. apply sort_cells_sorted.
  - intros Hs. destruct (sorted_split l Hs) as [Heq Hsorted].
    unfold sort_cells.
    assert (merge_sort R (non_nans l) = non_nans l) as ->.
    { apply (Sorted_unique R).
      - apply Sorted_merge_sort; apply _.
      - exact Hsorted.
      - apply merge_sort_Permutation. }
    symmetry. exact Heq.
Qed.
End nargsort_facts.

Lemma df_get_None (df : DataFrame) (column : string) :
  df_get df column = None <-> ~ In column (df_columns df).
Proof.
  unfold df_get, df_columns. induction (df_cols df) as [|[k v] l IH]; simpl.
  - tauto.
  - destruct (String.eqb_spec column k) as [->|Hne].
    + split; [discriminate|]. intros H. exfalso. apply H. left. reflexivity.
    + rewrite IH. split.
      * intros H [Hk|Hin]; [congruence|tauto].
      * tauto.
Qed.

Lemma series_equals_sorted (s : series) :
  series_equals (sort_values true s) s = true <-> nondecreasing s.
Proof.
  unfold series_equals. rewrite bool_decide_eq_true.
  destruct s as [l|l]; simpl.
  - rewrite <- (sort_cells_fixed Z.le l). split; [congruence|intros ->; reflexivity].
  - rewrite <- (sort_cells_fixed String.le l). split; [congruence|intros ->; reflexivity].
Qed.

(** C4. For a column present in the frame, [validate_sorted] with
    [ascending=True] passes exactly when the values of the column, read in
    row order, are non-decreasing under the order the sort uses (missing
    values last; equal neighbours are accepted, the order being
    reflexive). For a column absent from the frame the check fails with
    the column-not-found message. *)
Theorem validate_sorted_ascending (df : DataFrame) (column : string) :
  (forall s, df_get df column = Some s ->
     (fst (validate_sorted df column true) = true <-> nondecreasing s)) /\
  (~ In column (df_columns df) ->
     forall ascending, validate_sorted df column ascending =
       (false, "Column '" +:+ column +:+ "' not found in dataset")).
Proof.
  split.
  - intros s Hs. unfold validate_sorted. rewrite Hs.
    rewrite <- series_equals_sorted.
    destruct (series_equals (sort_values true s) s); simpl; split; congruence.
  - intros Hnot ascending. apply df_get_None in Hnot.
    unfold validate_sorted. rewrite Hnot. reflexivity.
Qed.

Lemma validate_sorted_ascending_witness :
  df_get (cleaned_df 3) "name" = Some (SStr (letters 3)) /\
  (fst (validate_sorted (cleaned_df 3) "name" true) = true
   <-> nondecreasing (SStr (letters 3))).
Proof.
  split; [reflexivity|].
  apply (proj1 (validate_sorted_ascending (cleaned_df 3) "name")).
  reflexivity.
Defined.

(** C7. [validate_row_count] passes exactly when the number of rows lies
    in [expected_min, expected_max]; with [expected_min <= expected_max],
    a frame of [expected_min] or of [expected_max] rows passes and one of
    [expected_min - 1] or [expected_max + 1] rows fails. *)
Theorem validate_row_count_range (df : DataFrame) (lo hi : Z) :
  (lo <= hi)%Z ->
  (fst (validate_row_count df lo hi) = true
     <-> (lo <= Z.of_nat (df_len df) <= hi)%Z) /\
  (Z.of_nat (df_len df) = lo -> fst (validate_row_count df lo hi) = true) /\
  (Z.of_nat (df_len df) = hi -> fst (validate_row_count df lo hi) = true) /\
  (Z.of_nat (df_len df) = (lo - 1)%Z -> fst (validate_row_count df lo hi) = false) /\
  (Z.of_nat (df_len df) = (hi + 1)%Z -> fst (validate_row_count df lo hi) = false).
Proof.
  intros Hle.
  assert (Hiff : fst (validate_row_count df lo hi) = true
                 <-> (lo <= Z.of_nat (df_len df) <= hi)%Z).
  { unfold validate_row_count.
    destruct (lo <=? Z.of_nat (df_len df))%Z eqn:H1;
      destruct (Z.of_nat (df_len df) <=? hi)%Z eqn:H2; simpl;
      try apply Z.leb_le in H1; try apply Z.leb_le in H2;
      try apply Z.leb_gt in H1; try apply Z.leb_gt in H2;
      split; intros; try lia; try discriminate; reflexivity. }
  split; [exact Hiff|].
  repeat split; intros Hn.
  - apply Hiff. lia.
  - apply Hiff. lia.
  - apply not_true_is_false. intros E. apply Hiff in E. lia.
  - apply not_true_is_false. intros E. apply Hiff in E. lia.
Qed.

Lemma validate_row_count_range_witness :
  (24 <= 25)%Z /\ Z.of_nat (df_len (cleaned_df 24)) = 24%Z /\
  fst (validate_row_count (cleaned_df 24) 24 25) = true.
Proof.
  split; [lia|]. split; [reflexivity|].
  destruct (validate_row_count_range (cleaned_df 24) 24 25) as (_ & Hmin & _);
    [lia|].
  apply Hmin. reflexivity.
Defined.

(** ** Strings *)

Lemma str_app_cons (x : ascii) (a b : string) :
  String x a +:+ b = String x (a +:+ b).
Proof. reflexivity. Qed.

Lemma str_app_assoc (a b c : string) : (a +:+ b) +:+ c = a +:+ b +:+ c.
Proof.
  induction a as [|x a IH]; [reflexivity|].
  rewrite !str_app_cons. f_equal. exact IH.
Qed.







(** ** The schema check *)

Section schema_facts.
Variable str_repr : string -> string.

Lemma validate_schema_passes (df : DataFrame) :
  fst (validate_schema str_repr df) = true
  <-> forall c, c ∈ df_columns df <-> c ∈ expected_names.
Proof.
  unfold validate_schema.
  destruct (bool_decide (expected_columns = list_to_set (df_columns df))) eqn:E; simpl.
  - apply bool_decide_eq_true in E. split; [intros _|reflexivity].
    intros c. unfold expected_columns in E.
    rewrite <- (elem_of_list_to_set (C := gset string) c (df_columns df)).
    rewrite <- E. apply elem_of_list_to_set.
  - apply bool_decide_eq_false in E. split; [discriminate|].
    intros H. exfalso. apply E. unfold expected_columns.
    apply set_eq. intros c. rewrite !elem_of_list_to_set. symmetry. apply H.
Qed.

End schema_facts.



(** ** The null check *)

Lemma no_nulls_step_single (df : DataFrame) (results : list string)
    (all_valid : bool) (col : string) :
  no_nulls_step df (results, all_valid) col =
  (results ++ [snd (validate_no_nulls df [col])],
   all_valid && fst (validate_no_nulls df [col])).
Proof.
  unfold validate_no_nulls. simpl. unfold no_nulls_step.
  destruct (df_get df col) as [s|]; simpl.
  - destruct (0 <? null_count s)%nat; simpl.
    + rewrite andb_false_r. reflexivity.
    + rewrite andb_true_r. reflexivity.
  - rewrite andb_false_r. reflexivity.
Qed.

Lemma no_nulls_loop (df : DataFrame) (columns : list string)
    (results : list string) (all_valid : bool) :
  fold_left (no_nulls_step df) columns (results, all_valid) =
  (results ++ map (fun c => snd (validate_no_nulls df [c])) columns,
   all_valid && forallb (fun c => fst (validate_no_nulls df [c])) columns).
Proof.
  revert results all_valid.
  induction columns as [|col columns IH]; intros results all_valid;
    cbn [fold_left map forallb].
  - rewrite app_nil_r, andb_true_r. reflexivity.
  - rewrite no_nulls_step_single, IH, <- app_assoc, andb_assoc. reflexivity.
Qed.

Lemma validate_no_nulls_single (df : DataFrame) (c : string) :
  validate_no_nulls df [c] =
  match df_get df c with
  | None => (false, "Column '" +:+ c +:+ "' not found")
  | Some s =>
      if (0 <? null_count s)%nat
      then (false, "✗ " +:+ c +:+ ": " +:+ str_of_nat (null_count s)
                   +:+ " NULL values found")
      else (true, "✓ " +:+ c +:+ ": No NULL values")
  end.
Proof.
  unfold validate_no_nulls. simpl.
  destruct (df_get df c) as [s|]; [|reflexivity].
  destruct (0 <? null_count s)%nat; reflexivity.
Qed.

Lemma null_count_missing_cells (s : series) :
  null_count s = missing_cells s.
Proof.
  unfold null_count, missing_cells, count_if.
  destruct s as [l|l]; unfold cells; induction l as [|[x|] l IH];
    cbn [map List.filter is_none length]; try reflexivity.
  - rewrite filter_cons_False by discriminate. exact IH.
  - rewrite filter_cons_True by reflexivity. cbn [length]. f_equal. exact IH.
  - rewrite filter_cons_False by discriminate. exact IH.
  - rewrite filter_cons_True by reflexivity. cbn [length]. f_equal. exact IH.
Qed.

Lemma count_none_zero {A : Type} (l : list (option A)) :
  count_if is_none l = 0 <-> None ∉ l.
Proof.
  unfold count_if. induction l as [|[x|] l IH]; simpl.
  - split; [|reflexivity]. intros _ H. apply elem_of_nil in H. exact H.
  - rewrite IH. split.
    + intros H Hin. apply elem_of_cons in Hin as [Hin|Hin]; [discriminate|].
      exact (H Hin).
    + intros H Hin. apply H. right. exact Hin.
  - split; [discriminate|]. intros H. exfalso. apply H. left.
Qed.

Lemma missing_cells_zero (s : series) :
  missing_cells s = 0 <-> no_missing s.
Proof. destruct s as [l|l]; apply count_none_zero. Qed.

(** C5. [validate_no_nulls] passes exactly when every named column is in
    the frame and none of its cells is missing; a column that is absent
    fails it. Its verdict is the conjunction, and its message the lines
    joined by a newline, of what the check reports on each named column
    alone, in the order given: every column is reported, not only the
    first that fails, and the line of a column with missing cells
    carries their number. *)
Theorem validate_no_nulls_columns (df : DataFrame) (columns : list string) :
  (fst (validate_no_nulls df columns) = true
     <-> forall c, c ∈ columns ->
           exists s, df_get df c = Some s /\ no_missing s) /\
  fst (validate_no_nulls df columns) =
    forallb (fun c => fst (validate_no_nulls df [c])) columns /\
  snd (validate_no_nulls df columns) =
    str_join nl (map (fun c => snd (validate_no_nulls df [c])) columns) /\
  (forall c,
     validate_no_nulls df [c] =
     match df_get df c with
     | None => (false, "Column '" +:+ c +:+ "' not found")
     | Some s =>
         if (0 <? missing_cells s)%nat
         then (false, "✗ " +:+ c +:+ ": " +:+ str_of_nat (missing_cells s)
                      +:+ " NULL values found")
         else (true, "✓ " +:+ c +:+ ": No NULL values")
     end).
Proof.
  assert (Hone : forall c,
     validate_no_nulls df [c] =
     match df_get df c with
     | None => (false, "Column '" +:+ c +:+ "' not found")
     | Some s =>
         if (0 <? missing_cells s)%nat
         then (false, "✗ " +:+ c +:+ ": " +:+ str_of_nat (missing_cells s)
                      +:+ " NULL values found")
         else (true, "✓ " +:+ c +:+ ": No NULL values")
     end).
  { intros c. rewrite validate_no_nulls_single.
    destruct (df_get df c) as [s|]; [|reflexivity].
    rewrite null_count_missing_cells. reflexivity. }
  assert (Hfst : fst (validate_no_nulls df columns) =
                 forallb (fun c => fst (validate_no_nulls df [c])) columns).
  { unfold validate_no_nulls at 1. rewrite no_nulls_loop. reflexivity. }
  assert (Hsnd : snd (validate_no_nulls df columns) =
                 str_join nl (map (fun c => snd (validate_no_nulls df [c])) columns)).
  { unfold validate_no_nulls at 1. rewrite no_nulls_loop. reflexivity. }
  split; [|split; [exact Hfst|split; [exact Hsnd|exact Hone]]].
  rewrite Hfst, forallb_forall. split.
  - intros H c Hc. apply list_elem_of_In, H in Hc.
    rewrite Hone in Hc.
    destruct (df_get df c) as [s|]; [|discriminate].
    exists s. split; [reflexivity|]. apply missing_cells_zero.
    destruct (0 <? missing_cells s)%nat eqn:E; [discriminate|].
    apply Nat.ltb_ge in E. lia.
  - intros H c Hc. apply list_elem_of_In, H in Hc as (s & Hs & Hz).
    apply missing_cells_zero in Hz.
    rewrite Hone, Hs, Hz. reflexivity.
Qed.

Lemma validate_no_nulls_columns_witness :
  (forall c, c ∈ ["name"] ->
     exists s, df_get messy_df c = Some s /\ no_missing s) /\
  fst (validate_no_nulls messy_df ["name"]) = true /\
  validate_no_nulls messy_df ["age"] = (false, "✗ age: 2 NULL values found") /\
  fst (validate_no_nulls messy_df ["age"; "name"]) = false.
Proof.
  assert (H : forall c, c ∈ ["name"] ->
            exists s, df_get messy_df c = Some s /\ no_missing s).
  { intros c Hc. apply list_elem_of_singleton in Hc as ->.
    eexists. split; [reflexivity|]. simpl. by_decide. }
  split; [exact H|]. split.
  { apply (proj1 (validate_no_nulls_columns messy_df ["name"])), H. }
  split.
  { destruct (validate_no_nulls_columns messy_df ["age"]) as (_ & _ & _ & Hone).
    rewrite Hone. reflexivity. }
  apply not_true_is_false. intros Hpass.
  destruct (proj1 (proj1 (validate_no_nulls_columns messy_df ["age"; "name"]))
              Hpass "age") as (s & Hs & Hnone).
  { left. }
  injection Hs as <-. apply Hnone. by_decide.
Defined.

(** ** Duplicate rows *)

Lemma count_true_cons (b : bool) (mask : list bool) :
  count_true (b :: mask) = (if b then 1 else 0) + count_true mask.
Proof.
  unfold count_true. destruct b.
  - rewrite filter_cons_True by reflexivity. reflexivity.
  - rewrite filter_cons_False by discriminate. reflexivity.
Qed.

Lemma count_true_app (m1 m2 : list bool) :
  count_true (m1 ++ m2) = count_true m1 + count_true m2.
Proof. unfold count_true. rewrite filter_app, length_app. reflexivity. Qed.

Lemma duplicated_from_length (seen l : list (list cell)) :
  length (duplicated_from seen l) = length l.
Proof.
  revert seen. induction l as [|r l IH]; intros seen; simpl; [reflexivity|].
  rewrite IH. reflexivity.
Qed.

(** No row is marked exactly when the rows are pairwise different and
    none was seen before. *)
Lemma duplicated_from_none (seen l : list (list cell)) :
  count_true (duplicated_from seen l) = 0
  <-> NoDup l /\ forall r, r ∈ l -> r ∉ seen.
Proof.
  revert seen. induction l as [|r l IH]; intros seen; simpl.
  - split; [intros _|reflexivity]. split; [constructor|].
    intros r Hr. apply elem_of_nil in Hr. destruct Hr.
  - rewrite count_true_cons, NoDup_cons.
    destruct (bool_decide (r ∈ seen)) eqn:E.
    + apply bool_decide_eq_true in E. split; [discriminate|].
      intros [_ H]. exfalso. apply (H r); [left|exact E].
    + apply bool_decide_eq_false in E. simpl. rewrite IH. split.
      * intros [Hnd H]. split; [split; [|exact Hnd]|].
        -- intros Hr. apply (H r Hr). left.
        -- intros x Hx. apply elem_of_cons in Hx as [->|Hx]; [exact E|].
           intros Hs. apply (H x Hx). right. exact Hs.
      * intros [[Hr Hnd] H]. split; [exact Hnd|].
        intros x Hx Hs. apply elem_of_cons in Hs as [->|Hs]; [exact (Hr Hx)|].
        apply (H x); [right; exact Hx|exact Hs].
Qed.

Lemma duplicated_from_snoc (seen l : list (list cell)) (x : list cell) :
  duplicated_from seen (l ++ [x]) =
  duplicated_from seen l ++ [bool_decide (x ∈ l \/ x ∈ seen)].
Proof.
  revert seen. induction l as [|r l IH]; intros seen; simpl.
  - f_equal. apply bool_decide_ext. split; [tauto|].
    intros [H|H]; [apply elem_of_nil in H; destruct H|exact H].
  - rewrite IH. do 3 f_equal. apply bool_decide_ext.
    rewrite !elem_of_cons. tauto.
Qed.

(** The mark of row [i]: an equal row stands before it. *)
Lemma duplicated_from_lookup (l : list (list cell)) (i : nat) (b : bool) :
  duplicated_from [] l !! i = Some b ->
  (b = true <-> exists j, j < i /\ l !! j = l !! i).
Proof.
  revert i b. induction l as [|x l IH] using rev_ind; intros i b.
  - simpl. intros H. rewrite lookup_nil in H. discriminate.
  - rewrite duplicated_from_snoc. intros H.
    destruct (decide (i < length l)) as [Hlt|Hge].
    + rewrite lookup_app_l in H by (rewrite duplicated_from_length; exact Hlt).
      rewrite (IH i b H). split; intros (j & Hj & Heq); exists j; split;
        try exact Hj.
      * rewrite !lookup_app_l by lia. exact Heq.
      * rewrite !lookup_app_l in Heq by lia. exact Heq.
    + assert (Hlen := lookup_lt_Some _ _ _ H).
      rewrite length_app, duplicated_from_length in Hlen. simpl in Hlen.
      assert (i = length l) as -> by lia.
      rewrite list_lookup_middle in H by (rewrite duplicated_from_length; reflexivity).
      injection H as <-. rewrite bool_decide_eq_true.
      rewrite (list_lookup_middle l [] x (length l) eq_refl). split.
      * intros [Hx|Hx]; [|apply elem_of_nil in Hx; destruct Hx].
        apply list_elem_of_lookup in Hx as [j Hj].
        exists j. split; [eapply lookup_lt_Some, Hj|].
        rewrite lookup_app_l by (eapply lookup_lt_Some, Hj). exact Hj.
      * intros (j & Hj & Heq). left.
        rewrite lookup_app_l in Heq by exact Hj.
        eapply list_elem_of_lookup_2, Heq.
Qed.

Lemma remove_dups_length_perm (l1 l2 : list (list cell)) :
  l1 ≡ₚ l2 -> length (remove_dups l1) = length (remove_dups l2).
Proof.
  intros Hp. apply Permutation_length, NoDup_Permutation.
  - apply NoDup_remove_dups.
  - apply NoDup_remove_dups.
  - intros x. rewrite !elem_of_remove_dups. rewrite Hp. reflexivity.
Qed.

Lemma remove_dups_length_le (l : list (list cell)) :
  length (remove_dups l) <= length l.
Proof.
  induction l as [|x l IH]; simpl; [lia|].
  destruct (decide_rel elem_of x l); simpl; lia.
Qed.

(** The rows marked are all the rows less the distinct ones. *)
Lemma duplicated_from_count (l : list (list cell)) :
  count_true (duplicated_from [] l) = surplus_rows l.
Proof.
  unfold surplus_rows.
  enough (count_true (duplicated_from [] l) + length (remove_dups l) = length l)
    by lia.
  induction l as [|x l IH] using rev_ind; [reflexivity|].
  rewrite duplicated_from_snoc, count_true_app, length_app.
  rewrite (remove_dups_length_perm (l ++ [x]) (x :: l))
    by (symmetry; apply Permutation_cons_append).
  unfold count_true at 2. simpl.
  destruct (decide_rel elem_of x l) as [Hin|Hnot].
  - rewrite filter_cons_True by (apply bool_decide_eq_true; left; exact Hin).
    simpl. lia.
  - rewrite filter_cons_False.
    + simpl. lia.
    + intros Hb. apply bool_decide_eq_true in Hb as [Hb|Hb]; [exact (Hnot Hb)|].
      apply elem_of_nil in Hb. exact Hb.
Qed.

Lemma rows_length (df : DataFrame) : length (rows df) = df_len df.
Proof. unfold rows. rewrite length_map, length_seq. reflexivity. Qed.

Lemma rows_lookup (df : DataFrame) (i : nat) :
  i < df_len df -> rows df !! i = Some (row df i).
Proof.
  intros Hi. unfold rows. rewrite list_lookup_fmap, lookup_seq_lt by exact Hi.
  reflexivity.
Qed.

Lemma row_eq_same_row (df : DataFrame) (i j : nat) :
  row df i = row df j <-> same_row df i j.
Proof.
  unfold row, same_row. induction (df_cols df) as [|[c s] l IH]; simpl.
  - split; [|reflexivity]. intros _ c s H. apply elem_of_nil in H. destruct H.
  - split.
    + intros H. injection H as Hhd Htl. intros c' s' Hin.
      apply elem_of_cons in Hin as [Heq|Hin].
      * injection Heq as -> ->. exact Hhd.
      * apply (proj1 IH Htl c' s' Hin).
    + intros H. f_equal.
      * apply (H c s). left.
      * apply IH. intros c' s' Hin. apply (H c' s'). right. exact Hin.
Qed.

Lemma rows_lookup_eq (df : DataFrame) (i j : nat) :
  i < df_len df -> j < df_len df ->
  (rows df !! j = rows df !! i <-> same_row df j i).
Proof.
  intros Hi Hj. rewrite !rows_lookup by assumption.
  rewrite <- row_eq_same_row. split; [congruence|intros ->; reflexivity].
Qed.

Lemma duplicated_rows (df : DataFrame) :
  df_cols df <> [] -> duplicated df = duplicated_from [] (rows df).
Proof.
  intros Hcols. unfold duplicated, df_empty.
  destruct (df_len df =? 0)%nat eqn:E.
  - apply Nat.eqb_eq in E. unfold rows. rewrite E. reflexivity.
  - destruct (df_cols df); [congruence|reflexivity].
Qed.

Lemma rows_NoDup (df : DataFrame) :
  NoDup (rows df)
  <-> forall i j, i < j < df_len df -> ~ same_row df i j.
Proof.
  rewrite NoDup_alt. split.
  - intros H i j [Hij Hj] Hsame.
    apply row_eq_same_row in Hsame.
    assert (i = j); [|lia].
    apply (H i j (row df i)).
    + apply rows_lookup. lia.
    + rewrite Hsame. apply rows_lookup. exact Hj.
  - intros H i j r Hi Hj.
    assert (Hil := lookup_lt_Some _ _ _ Hi).
    assert (Hjl := lookup_lt_Some _ _ _ Hj).
    rewrite rows_length in Hil, Hjl.
    rewrite rows_lookup in Hi, Hj by assumption.
    destruct (Nat.lt_total i j) as [Hlt|[Heq|Hgt]]; [|exact Heq|]; exfalso.
    + apply (H i j); [lia|]. apply row_eq_same_row. congruence.
    + apply (H j i); [lia|]. apply row_eq_same_row. congruence.
Qed.

Lemma validate_no_duplicates_count (df : DataFrame) :
  df_cols df <> [] ->
  validate_no_duplicates df =
  if (0 <? surplus_rows (rows df))%nat
  then (false, "✗ Found " +:+ str_of_nat (surplus_rows (rows df))
               +:+ " duplicate rows")
  else (true, "✓ No duplicate rows (total: " +:+ str_of_nat (df_len df)
              +:+ " rows)").
Proof.
  intros Hcols. unfold validate_no_duplicates.
  rewrite (duplicated_rows df Hcols), duplicated_from_count. reflexivity.
Qed.

(** C6. On a frame as the loader returns it, [validate_no_duplicates]
    passes exactly when no two rows hold the same cells in every column;
    when it fails, its message carries the number of duplicate rows. *)
Theorem validate_no_duplicates_rows (df : DataFrame) :
  Dataset df ->
  (fst (validate_no_duplicates df) = true
     <-> forall i j, i < j < df_len df -> ~ same_row df i j) /\
  (fst (validate_no_duplicates df) = false ->
     snd (validate_no_duplicates df) =
       "✗ Found " +:+ str_of_nat (surplus_rows (rows df)) +:+ " duplicate rows").
Proof.
  intros (Hcols & _ & _). split.
  - rewrite <- rows_NoDup. unfold validate_no_duplicates.
    rewrite (duplicated_rows df Hcols).
    destruct (0 <? count_true (duplicated_from [] (rows df)))%nat eqn:E; simpl.
    + apply Nat.ltb_lt in E. split; [discriminate|].
      intros Hnd. exfalso.
      assert (count_true (duplicated_from [] (rows df)) = 0); [|lia].
      apply duplicated_from_none. split; [exact Hnd|].
      intros r _ Hr. apply elem_of_nil in Hr. exact Hr.
    + apply Nat.ltb_ge in E. split; [intros _|reflexivity].
      apply (duplicated_from_none [] (rows df)). lia.
  - rewrite (validate_no_duplicates_count df Hcols).
    destruct (0 <? surplus_rows (rows df))%nat; [reflexivity|discriminate].
Qed.

Lemma messy_df_Dataset : Dataset messy_df.
Proof.
  split; [discriminate|]. split; [by_decide|].
  repeat constructor.
Qed.

Lemma validate_no_duplicates_rows_witness :
  Dataset messy_df /\
  snd (validate_no_duplicates messy_df) = "✗ Found 1 duplicate rows".
Proof.
  split; [exact messy_df_Dataset|].
  apply (proj2 (validate_no_duplicates_rows messy_df messy_df_Dataset)).
  reflexivity.
Defined.

(** C10. On a frame as the loader returns it, the rows that
    [validate_no_duplicates] counts are the rows that have an identical
    row before them: of a group of identical rows all but the first. The
    count it reports is the number of rows less the number of distinct
    rows, and a frame without rows passes. *)
Theorem validate_no_duplicates_keeps_first (df : DataFrame) :
  Dataset df ->
  count_true (duplicated df) = length (rows df) - length (remove_dups (rows df)) /\
  (forall i b, duplicated df !! i = Some b ->
     (b = true <-> exists j, j < i /\ same_row df j i)) /\
  validate_no_duplicates df =
    (if (0 <? length (rows df) - length (remove_dups (rows df)))%nat
     then (false, "✗ Found "
             +:+ str_of_nat (length (rows df) - length (remove_dups (rows df)))
             +:+ " duplicate rows")
     else (true, "✓ No duplicate rows (total: " +:+ str_of_nat (df_len df)
                 +:+ " rows)")) /\
  (df_len df = 0 -> fst (validate_no_duplicates df) = true).
Proof.
  intros (Hcols & _ & _).
  split; [|split; [|split]].
  - rewrite (duplicated_rows df Hcols). apply duplicated_from_count.
  - intros i b Hb. rewrite (duplicated_rows df Hcols) in Hb.
    assert (Hi := lookup_lt_Some _ _ _ Hb).
    rewrite duplicated_from_length, rows_length in Hi.
    rewrite (duplicated_from_lookup _ _ _ Hb).
    split; intros (j & Hj & Hsame); exists j; (split; [exact Hj|]).
    + apply rows_lookup_eq in Hsame; [exact Hsame|exact Hi|lia].
    + apply rows_lookup_eq; [exact Hi|lia|exact Hsame].
  - apply (validate_no_duplicates_count df Hcols).
  - intros Hlen. unfold validate_no_duplicates, duplicated, df_empty.
    rewrite Hlen. reflexivity.
Qed.

Lemma validate_no_duplicates_keeps_first_witness :
  Dataset messy_df /\
  count_true (duplicated messy_df) = 3 - 2 /\
  duplicated messy_df = [false; false; true].
Proof.
  split; [exact messy_df_Dataset|]. split; [|reflexivity].
  apply (proj1 (validate_no_duplicates_keeps_first messy_df messy_df_Dataset)).
Defined.

(** ** The text-case check *)

Section text_case_facts.
Variable str_lower : string -> string.

Lemma series_ne_lower_count (l : list (option string)) :
  count_true (series_ne (series_lower str_lower l) l) =
  count_if is_missing l + count_if (not_lowercase str_lower) l.
Proof.
  unfold count_if. induction l as [|c l IH]; [reflexivity|].
  cbn [series_lower map series_ne]. fold (series_lower str_lower l).
  rewrite count_true_cons, IH.
  destruct c as [x|]; simpl.
  - destruct (negb (String.eqb (str_lower x) x)); simpl; lia.
  - lia.
Qed.

Lemma count_missing_pos (l : list (option string)) :
  None ∈ l -> 0 < count_if is_missing l.
Proof.
  unfold count_if. induction l as [|c l IH]; intros H.
  - apply elem_of_nil in H. destruct H.
  - apply elem_of_cons in H as [<-|H]; simpl; [lia|].
    destruct (is_missing c); simpl; [lia|]. apply IH, H.
Qed.

End text_case_facts.

(** C9. When the target column is a column of strings with at least one
    missing cell, [validate_text_case] fails. A missing cell differs from
    its lower-case form under the comparison the check uses, so the
    count in the message is the number of missing cells plus the number
    of strings that are not lower-case. *)
Theorem validate_text_case_missing (str_lower : string -> string)
    (df : DataFrame) (column : string) (l : list (option string)) :
  df_get df column = Some (SStr l) ->
  None ∈ l ->
  cell_ne (option_map str_lower None) None = true /\
  0 < count_if is_missing l /\
  validate_text_case str_lower df column =
    Ok (false,
        "Found "
        +:+ str_of_nat (count_if is_missing l + count_if (not_lowercase str_lower) l)
        +:+ " rows with non-lowercase " +:+ column).
Proof.
  intros Hcol Hnull. split; [reflexivity|].
  pose proof (count_missing_pos l Hnull) as Hpos.
  split; [exact Hpos|].
  unfold validate_text_case. rewrite Hcol. simpl.
  rewrite series_ne_lower_count.
  destruct (0 <? count_if is_missing l + count_if (not_lowercase str_lower) l)%nat
    eqn:E; [reflexivity|].
  apply Nat.ltb_ge in E. lia.
Qed.

Lemma validate_text_case_missing_witness :
  df_get messy_df "status" = Some (SStr [Some "Active"; None; Some "Active"]) /\
  (None ∈ [Some "Active"; None; Some "Active"]) /\
  validate_text_case ascii_lower messy_df "status" =
    Ok (false, "Found 3 rows with non-lowercase status").
Proof.
  assert (H1 : df_get messy_df "status"
               = Some (SStr [Some "Active"; None; Some "Active"])) by reflexivity.
  assert (H2 : None ∈ [Some "Active"; None; Some "Active"]) by by_decide.
  split; [exact H1|]. split; [exact H2|].
  apply (validate_text_case_missing ascii_lower messy_df "status" _ H1 H2).
Defined.




(** ** The aggregator *)

Section aggregator_facts.
Variables str_lower str_upper str_repr : string -> string.



End aggregator_facts.




(** ** The entry point *)

Section main_facts.
Variables str_lower str_upper str_repr : string -> string.
Variable path_exists : string -> bool.
Variable read_csv : string -> result DataFrame.
Variable stdout_error : string -> option exn.









End main_facts.




(** ** The model at work *)

(** A cleaned file of 24 rows passes every check and, on a standard
    output that takes every string, [main] exits with status 0. *)
Example cleaned_file_exits_zero :
  snd (main ascii_lower ascii_upper quote_repr
         (one_file "cleaned.csv") (one_file_csv "cleaned.csv" (cleaned_df 24))
         utf8_stdout ["validator.py"; "cleaned.csv"]) = 0%Z.
Proof. vm_compute. reflexivity. Qed.

(** The same file with a numeric [status] column: the run ends on the
    error of the third check, with status 1 and no report. *)
Example numeric_status_exits_one :
  main ascii_lower ascii_upper quote_repr
    (one_file "f.csv") (one_file_csv "f.csv" (numeric_status_df 24))
    utf8_stdout ["validator.py"; "f.csv"] =
  ([nl +:+ "Loading: f.csv"; "Loaded 24 rows, 7 columns";
    nl +:+ "ERROR: Can only use .str accessor with string values!"], 1%Z).
Proof. vm_compute. reflexivity. Qed.

(** On a standard output that takes ASCII only, the first line of the
    report is written and the second, which carries a check mark, is
    not: the run ends there with the error of [print]. *)
Example ascii_stdout_stops_report :
  fst (main ascii_lower ascii_upper quote_repr
         (one_file "cleaned.csv") (one_file_csv "cleaned.csv" (cleaned_df 24))
         ascii_stdout ["validator.py"; "cleaned.csv"]) =
  [nl +:+ "Loading: cleaned.csv"; "Loaded 24 rows, 7 columns";
   nl +:+ str_repeat "=" 60; "RHOMBUS AI DATA VALIDATION REPORT";
   str_repeat "=" 60 +:+ nl; "[PASS] SCHEMA";
   nl +:+ "ERROR: 'ascii' codec can't encode character: ordinal not in range(128)"].
Proof. vm_compute. reflexivity. Qed.

(** A frame without columns is empty for pandas whatever its length, and
    [duplicated] marks nothing in it. *)
Example no_columns_no_duplicates :
  validate_no_duplicates {| df_len := 2; df_cols := [] |} =
  (true, "✓ No duplicate rows (total: 2 rows)").
Proof. reflexivity. Qed.

(** Equal neighbours are in order; a missing value before a present one
    is not. *)
Example ties_are_sorted :
  fst (validate_sorted
         {| df_len := 3;
            df_cols := [("name", SStr [Some "al"; Some "al"; Some "bob"])] |}
         "name" true) = true.
Proof. vm_compute. reflexivity. Qed.

Example missing_first_is_not_sorted :
  fst (validate_sorted
         {| df_len := 2; df_cols := [("name", SStr [None; Some "al"])] |}
         "name" true) = false.
Proof. vm_compute. reflexivity. Qed.

(** * Further properties of the checks *)

(** ** Descending order *)

Section nargsort_descending.
Context {A : Type} (R : relation A) `{!RelDecision R}.
Context `{!Transitive R, !Total R, !AntiSymm (=) R}.

Local Instance flip_transitive : Transitive (flip R).
Proof. intros x y z Hxy Hyz. unfold flip in *. etrans; eassumption. Qed.

Local Instance flip_antisymm : AntiSymm (=) (flip R).
Proof. intros x y Hxy Hyx. unfold flip in *. apply (anti_symm R); assumption. Qed.

Lemma sort_descending_sorted (l : list A) :
  Sorted (flip R) (reverse (merge_sort R (reverse l))).
Proof. apply Sorted_reverse, Sorted_merge_sort; apply _. Qed.

Lemma sort_descending_perm (l : list A) :
  reverse (merge_sort R (reverse l)) ≡ₚ l.
Proof. rewrite reverse_Permutation, merge_sort_Permutation. apply reverse_Permutation. Qed.

(** A column equals its descending sort exactly when it is
    non-increasing, missing cells last. *)
Lemma sort_cells_fixed_descending (l : list (option A)) :
  sort_cells R false l = l <-> Sorted (opt_le (flip R)) l.
Proof.
  split.
  - intros H. rewrite <- H. unfold sort_cells.
    apply sorted_values_then_missing.
    + apply sort_descending_sorted.
    + apply nans_all_missing.
  - intros Hs. destruct (sorted_split (flip R) l Hs) as [Heq Hsorted].
    unfold sort_cells.
    assert (reverse (merge_sort R (reverse (non_nans l))) = non_nans l) as ->.
    { apply (Sorted_unique (flip R)).
      - apply sort_descending_sorted.
      - exact Hsorted.
      - apply sort_descending_perm. }
    symmetry. exact Heq.
Qed.
End nargsort_descending.

(** X1. For a column present in the frame, [validate_sorted] with
    [ascending=False] passes exactly when the values, read in row order,
    never increase, the missing values standing last as they do in the
    ascending order. *)
Theorem validate_sorted_descending (df : DataFrame) (column : string) (s : series) :
  df_get df column = Some s ->
  (fst (validate_sorted df column false) = true <-> nonincreasing s).
Proof.
  intros Hs. unfold validate_sorted. rewrite Hs.
  assert (Hfix : sort_values false s = s <-> nonincreasing s).
  { destruct s as [l|l]; simpl.
    - rewrite <- (sort_cells_fixed_descending Z.le l).
      split; [congruence|intros ->; reflexivity].
    - rewrite <- (sort_cells_fixed_descending String.le l).
      split; [congruence|intros ->; reflexivity]. }
  unfold series_equals.
  destruct (bool_decide (sort_values false s = s)) eqn:E; simpl.
  - apply bool_decide_eq_true in E. split; [intros _; apply Hfix, E|reflexivity].
  - apply bool_decide_eq_false in E. split; [discriminate|].
    intros H. exfalso. apply E, Hfix, H.
Qed.

Lemma validate_sorted_descending_witness :
  df_get messy_df "age" = Some (SNum [None; Some 30%Z; None]) /\
  (fst (validate_sorted messy_df "age" false) = true
   <-> nonincreasing (SNum [None; Some 30%Z; None])).
Proof.
  split; [reflexivity|].
  apply (validate_sorted_descending messy_df "age"). reflexivity.
Defined.

(** ** When the text-case check passes *)

Section text_case_pass.
Variable str_lower : string -> string.

Lemma count_if_zero {A : Type} (f : A -> bool) (l : list A) :
  count_if f l = 0 <-> forall c, c ∈ l -> f c = false.
Proof.
  unfold count_if. induction l as [|x l IH]; simpl.
  - split; [|reflexivity]. intros _ c Hc. apply elem_of_nil in Hc. destruct Hc.
  - destruct (f x) eqn:E; simpl.
    + split; [discriminate|]. intros H. rewrite (H x) in E; [discriminate|left].
    + rewrite IH. split.
      * intros H c Hc. apply elem_of_cons in Hc as [->|Hc]; [exact E|apply H, Hc].
      * intros H c Hc. apply H. right. exact Hc.
Qed.

Lemma lowercase_count_zero (l : list (option string)) :
  count_if is_missing l + count_if (not_lowercase str_lower) l = 0
  <-> all_lowercase str_lower l.
Proof.
  unfold all_lowercase. split.
  - intros H c Hc.
    assert (H1 : count_if is_missing l = 0) by lia.
    assert (H2 : count_if (not_lowercase str_lower) l = 0) by lia.
    pose proof (proj1 (count_if_zero _ _) H1 c Hc) as Hm.
    pose proof (proj1 (count_if_zero _ _) H2 c Hc) as Hl.
    destruct c as [x|]; [|discriminate]. exists x. split; [reflexivity|].
    simpl in Hl. apply negb_false_iff, String.eqb_eq in Hl. exact Hl.
  - intros H.
    assert (H1 : count_if is_missing l = 0).
    { apply count_if_zero. intros c Hc. destruct (H c Hc) as (x & -> & _). reflexivity. }
    assert (H2 : count_if (not_lowercase str_lower) l = 0).
    { apply count_if_zero. intros c Hc. destruct (H c Hc) as (x & -> & Hx).
      simpl. rewrite Hx, String.eqb_refl. reflexivity. }
    lia.
Qed.

Lemma validate_text_case_pass_iff (df : DataFrame) (column : string) :
  (exists m, validate_text_case str_lower df column = Ok (true, m))
  <-> exists l, df_get df column = Some (SStr l) /\ all_lowercase str_lower l.
Proof.
  unfold validate_text_case.
  destruct (df_get df column) as [[l|l]|]; simpl.
  - split; [intros [m H]; discriminate|intros (l' & H & _); discriminate].
  - rewrite series_ne_lower_count.
    destruct (0 <? count_if is_missing l + count_if (not_lowercase str_lower) l)%nat
      eqn:E.
    + apply Nat.ltb_lt in E. split; [intros [m H]; discriminate|].
      intros (l' & H & Hall). injection H as <-.
      apply lowercase_count_zero in Hall. lia.
    + apply Nat.ltb_ge in E. split; [|eauto]. intros _.
      exists l. split; [reflexivity|]. apply lowercase_count_zero. lia.
  - split; [intros [m H]; discriminate|intros (l' & H & _); discriminate].
Qed.
End text_case_pass.

(** X2. [validate_text_case] returns a passing result exactly when the
    target column is a column of strings in which every cell is present
    and equal to its lower-case form; the message then names the
    column. *)
Theorem validate_text_case_passes (str_lower : string -> string)
    (df : DataFrame) (column : string) :
  ((exists m, validate_text_case str_lower df column = Ok (true, m))
   <-> exists l, df_get df column = Some (SStr l) /\ all_lowercase str_lower l) /\
  (forall m, validate_text_case str_lower df column = Ok (true, m) ->
     m = "✓ All " +:+ column +:+ " values are lowercase").
Proof.
  split; [apply validate_text_case_pass_iff|].
  intros m. unfold validate_text_case.
  destruct (df_get df column) as [[l|l]|]; simpl; try discriminate.
  destruct (0 <? _)%nat; [discriminate|]. intros H. injection H as <-. reflexivity.
Qed.

Lemma validate_text_case_passes_witness :
  validate_text_case ascii_lower (cleaned_df 2) "status" =
    Ok (true, "✓ All status values are lowercase") /\
  "✓ All status values are lowercase" = "✓ All " +:+ "status" +:+ " values are lowercase".
Proof.
  assert (H : validate_text_case ascii_lower (cleaned_df 2) "status" =
              Ok (true, "✓ All status values are lowercase")) by reflexivity.
  split; [exact H|].
  apply (proj2 (validate_text_case_passes ascii_lower (cleaned_df 2) "status") _ H).
Defined.

(** ** What [main] prints when a check raises *)



(** ** More on the schema check *)

(** X6. The verdict of [validate_schema] depends only on which column
    names occur: two frames with the same names, in any order and with
    any rows, get the same verdict. *)
Theorem validate_schema_same_names (str_repr : string -> string)
    (df df' : DataFrame) :
  (forall c, c ∈ df_columns df <-> c ∈ df_columns df') ->
  fst (validate_schema str_repr df) = fst (validate_schema str_repr df').
Proof.
  intros Hsame.
  pose proof (validate_schema_passes str_repr df) as H.
  pose proof (validate_schema_passes str_repr df') as H'.
  destruct (fst (validate_schema str_repr df));
    destruct (fst (validate_schema str_repr df')); try reflexivity; exfalso.
  - assert (false = true); [|discriminate]. apply H'.
    intros c. rewrite <- Hsame. apply H. reflexivity.
  - assert (false = true); [|discriminate]. apply H.
    intros c. rewrite Hsame. apply H'. reflexivity.
Qed.

Lemma validate_schema_same_names_witness :
  (forall c, c ∈ df_columns (cleaned_df 2) <-> c ∈ df_columns (numeric_status_df 5)) /\
  fst (validate_schema quote_repr (cleaned_df 2)) =
  fst (validate_schema quote_repr (numeric_status_df 5)).
Proof.
  assert (H : forall c, c ∈ df_columns (cleaned_df 2)
                        <-> c ∈ df_columns (numeric_status_df 5))
    by (intros c; reflexivity).
  split; [exact H|].
  apply (validate_schema_same_names quote_repr _ _ H).
Defined.

Lemma expected_columns_size : size expected_columns = 7.
Proof. vm_compute. reflexivity. Qed.

(** X7. When [validate_schema] passes, the number of columns in its
    message is seven, however many columns the frame lists. *)
Theorem validate_schema_pass_message (str_repr : string -> string)
    (df : DataFrame) :
  fst (validate_schema str_repr df) = true ->
  validate_schema str_repr df = (true, "✓ Schema matches: 7 columns").
Proof.
  unfold validate_schema.
  destruct (bool_decide (expected_columns = list_to_set (df_columns df))) eqn:E;
    [|discriminate].
  intros _. apply bool_decide_eq_true in E. rewrite <- E, expected_columns_size.
  reflexivity.
Qed.

Lemma validate_schema_pass_message_witness :
  fst (validate_schema quote_repr (cleaned_df 2)) = true /\
  validate_schema quote_repr (cleaned_df 2) = (true, "✓ Schema matches: 7 columns").
Proof.
  assert (H : fst (validate_schema quote_repr (cleaned_df 2)) = true)
    by (vm_compute; reflexivity).
  split; [exact H|].
  apply (validate_schema_pass_message quote_repr (cleaned_df 2) H).
Defined.

(** ** More on duplicate rows *)

Lemma duplicated_lookup (df : DataFrame) (i : nat) (b : bool) :
  df_cols df <> [] ->
  duplicated df !! i = Some b ->
  (b = true <-> exists j, j < i /\ same_row df j i).
Proof.
  intros Hcols Hb. rewrite (duplicated_rows df Hcols) in Hb.
  assert (Hi := lookup_lt_Some _ _ _ Hb).
  rewrite duplicated_from_length, rows_length in Hi.
  rewrite (duplicated_from_lookup _ _ _ Hb).
  split; intros (j & Hj & Hsame); exists j; (split; [exact Hj|]).
  - apply rows_lookup_eq in Hsame; [exact Hsame|exact Hi|lia].
  - apply rows_lookup_eq; [exact Hi|lia|exact Hsame].
Qed.

Lemma duplicated_length (df : DataFrame) :
  df_cols df <> [] -> length (duplicated df) = df_len df.
Proof.
  intros Hcols. rewrite (duplicated_rows df Hcols), duplicated_from_length.
  apply rows_length.
Qed.

Lemma same_row_perm (df df' : DataFrame) (i j : nat) :
  df_cols df ≡ₚ df_cols df' -> same_row df i j -> same_row df' i j.
Proof.
  intros Hp H c s Hin. apply (H c s). rewrite Hp. exact Hin.
Qed.

Lemma duplicated_perm (df df' : DataFrame) :
  df_len df = df_len df' -> df_cols df ≡ₚ df_cols df' ->
  duplicated df = duplicated df'.
Proof.
  intros Hlen Hp.
  destruct (decide (df_cols df = [])) as [Hnil|Hcols].
  - assert (Hnil' : df_cols df' = []).
    { apply Permutation_nil. rewrite <- Hnil. exact Hp. }
    unfold duplicated, df_empty. rewrite Hnil, Hnil'. simpl.
    rewrite !orb_true_r. reflexivity.
  - assert (Hcols' : df_cols df' <> []).
    { intros Hnil'. apply Hcols, Permutation_nil. rewrite <- Hnil'.
      symmetry. exact Hp. }
    apply list_eq. intros i.
    destruct (duplicated df !! i) as [b|] eqn:Hb;
      destruct (duplicated df' !! i) as [b'|] eqn:Hb'.
    + f_equal.
      pose proof (duplicated_lookup df i b Hcols Hb) as H.
      pose proof (duplicated_lookup df' i b' Hcols' Hb') as H'.
      assert (Hiff : b = true <-> b' = true).
      { rewrite H, H'. split; intros (j & Hj & Hs); exists j; (split; [exact Hj|]).
        - apply (same_row_perm df df'); assumption.
        - apply (same_row_perm df' df); [symmetry|]; assumption. }
      destruct b, b'; try reflexivity.
      * symmetry. apply Hiff. reflexivity.
      * apply Hiff. reflexivity.
    + exfalso. apply lookup_lt_Some in Hb. apply lookup_ge_None in Hb'.
      rewrite duplicated_length in Hb, Hb' by assumption. lia.
    + exfalso. apply lookup_lt_Some in Hb'. apply lookup_ge_None in Hb.
      rewrite duplicated_length in Hb, Hb' by assumption. lia.
    + reflexivity.
Qed.

(** X8. [validate_no_duplicates] does not depend on the order of the
    columns: two frames of the same length whose columns are the same up
    to their order get the same verdict and the same message. *)
Theorem validate_no_duplicates_column_order (df df' : DataFrame) :
  df_len df = df_len df' ->
  df_cols df ≡ₚ df_cols df' ->
  validate_no_duplicates df = validate_no_duplicates df'.
Proof.
  intros Hlen Hp. unfold validate_no_duplicates.
  rewrite (duplicated_perm df df' Hlen Hp), Hlen. reflexivity.
Qed.

Lemma validate_no_duplicates_column_order_witness :
  validate_no_duplicates messy_df =
  validate_no_duplicates
    {| df_len := 3;
       df_cols :=
         [("age", SNum [None; Some 30%Z; None]);
          ("name", SStr [Some "bob"; Some "al"; Some "bob"]);
          ("status", SStr [Some "Active"; None; Some "Active"])] |}.
Proof.
  apply validate_no_duplicates_column_order; [reflexivity|].
  apply perm_swap.
Defined.

Lemma remove_dups_nonempty (l : list (list cell)) :
  l <> [] -> 1 <= length (remove_dups l).
Proof.
  destruct l as [|x l]; [congruence|]. intros _.
  assert (Hx : x ∈ remove_dups (x :: l)) by (apply elem_of_remove_dups; left).
  destruct (remove_dups (x :: l)); [apply elem_of_nil in Hx; destruct Hx|].
  simpl. lia.
Qed.

(** X9. The first row of a group of identical rows is never counted:
    the number of rows [validate_no_duplicates] counts as duplicates is
    at most the number of rows less one, on every frame. *)
Theorem duplicate_count_bound (df : DataFrame) :
  count_true (duplicated df) <= df_len df - 1.
Proof.
  unfold duplicated. destruct (df_empty df) eqn:E; [unfold count_true; simpl; lia|].
  rewrite duplicated_from_count. unfold surplus_rows.
  unfold df_empty in E. apply orb_false_elim in E as [E _].
  apply Nat.eqb_neq in E.
  pose proof (rows_length df) as Hlen.
  assert (Hne : rows df <> []).
  { intros Hnil. rewrite Hnil in Hlen. simpl in Hlen. lia. }
  pose proof (remove_dups_nonempty _ Hne). lia.
Qed.

(** ** Composing the null check *)

Lemma validate_no_nulls_map (df : DataFrame) (columns : list string) :
  validate_no_nulls df columns =
  (forallb (fun c => fst (validate_no_nulls df [c])) columns,
   str_join nl (map (fun c => snd (validate_no_nulls df [c])) columns)).
Proof.
  unfold validate_no_nulls at 1. rewrite no_nulls_loop. reflexivity.
Qed.

Lemma str_join_app (sep : string) (l1 l2 : list string) :
  l1 <> [] -> l2 <> [] ->
  str_join sep (l1 ++ l2) = str_join sep l1 +:+ sep +:+ str_join sep l2.
Proof.
  unfold str_join. intros H1 H2.
  induction l1 as [|x l1 IH]; [congruence|].
  destruct l1 as [|y l1].
  - destruct l2 as [|z l2]; [congruence|]. reflexivity.
  - change (x +:+ sep +:+ String.concat sep ((y :: l1) ++ l2) =
            (x +:+ sep +:+ String.concat sep (y :: l1))
            +:+ sep +:+ String.concat sep l2).
    rewrite IH by discriminate. rewrite !str_app_assoc. reflexivity.
Qed.


(** X10. Checking two lists of columns in one call is checking each list
    on its own: the verdict for [l1 ++ l2] is the conjunction of the two
    verdicts, and, when neither list is empty, the message is the two
    messages joined by a newline. *)
Theorem validate_no_nulls_app (df : DataFrame) (l1 l2 : list string) :
  fst (validate_no_nulls df (l1 ++ l2)) =
    fst (validate_no_nulls df l1) && fst (validate_no_nulls df l2) /\
  (l1 <> [] -> l2 <> [] ->
   snd (validate_no_nulls df (l1 ++ l2)) =
     snd (validate_no_nulls df l1) +:+ nl +:+ snd (validate_no_nulls df l2)).
Proof.
  rewrite !validate_no_nulls_map. cbn [fst snd]. split.
  - apply forallb_app.
  - intros H1 H2. rewrite map_app. apply str_join_app.
    + destruct l1; [congruence|discriminate].
    + destruct l2; [congruence|discriminate].
Qed.

Lemma validate_no_nulls_app_witness :
  ["age"] <> [] /\ ["name"] <> [] /\
  snd (validate_no_nulls messy_df (["age"] ++ ["name"])) =
    snd (validate_no_nulls messy_df ["age"]) +:+ nl
    +:+ snd (validate_no_nulls messy_df ["name"]).
Proof.
  assert (H1 : ["age"] <> ([] : list string)) by discriminate.
  assert (H2 : ["name"] <> ([] : list string)) by discriminate.
  split; [exact H1|]. split; [exact H2|].
  apply (proj2 (validate_no_nulls_app messy_df ["age"] ["name"]) H1 H2).
Defined.

(** ** Exit status 0, in terms of the data *)

Section cleaned_facts.
Variables str_lower str_upper str_repr : string -> string.
Variable path_exists : string -> bool.
Variable read_csv : string -> result DataFrame.
Variable stdout_error : string -> option exn.

Lemma validate_row_count_pass_iff (df : DataFrame) (lo hi : Z) :
  fst (validate_row_count df lo hi) = true
  <-> (lo <= Z.of_nat (df_len df) <= hi)%Z.
Proof.
  unfold validate_row_count.
  destruct (lo <=? Z.of_nat (df_len df))%Z eqn:H1;
    destruct (Z.of_nat (df_len df) <=? hi)%Z eqn:H2; simpl;
    try apply Z.leb_le in H1; try apply Z.leb_le in H2;
    try apply Z.leb_gt in H1; try apply Z.leb_gt in H2;
    split; intros; try lia; try discriminate; reflexivity.
Qed.








End cleaned_facts.



(** ** The tests of [test_validation.py] *)

Lemma elem_of_unique_from {A : Type} `{EqDecision A} (seen l : list A) (x : A) :
  x ∈ unique_from seen l <-> x ∈ l /\ x ∉ seen.
Proof.
  revert seen. induction l as [|y l IH]; intros seen; simpl.
  - split; [intros H|intros [H _]]; apply elem_of_nil in H; destruct H.
  - destruct (bool_decide (y ∈ seen)) eqn:E.
    + apply bool_decide_eq_true in E. rewrite IH, elem_of_cons. split.
      * intros [Hx Hs]. split; [right; exact Hx|exact Hs].
      * intros [[->|Hx] Hs]; [contradiction|]. split; assumption.
    + apply bool_decide_eq_false in E. rewrite !elem_of_cons, IH, elem_of_cons.
      split.
      * intros [->|[Hx Hs]]; [split; [left; reflexivity|exact E]|].
        split; [right; exact Hx|]. intros Hin. apply Hs. right. exact Hin.
      * intros [[->|Hx] Hs]; [left; reflexivity|].
        destruct (decide (x = y)) as [->|Hne]; [left; reflexivity|].
        right. split; [exact Hx|]. intros [Heq|Hin]; [exact (Hne Heq)|exact (Hs Hin)].
Qed.

Lemma elem_of_unique {A : Type} `{EqDecision A} (l : list A) (x : A) :
  x ∈ unique l <-> x ∈ l.
Proof.
  unfold unique. rewrite elem_of_unique_from. split; [intros [H _]; exact H|].
  intros H. split; [exact H|]. intros Hnil. apply elem_of_nil in Hnil. exact Hnil.
Qed.

Lemma issubset_true (values : list (option string)) (valid : list string) :
  issubset values valid = true
  <-> forall c, c ∈ values -> exists x, c = Some x /\ x ∈ valid.
Proof.
  unfold issubset. rewrite forallb_forall. split.
  - intros H c Hc. apply list_elem_of_In, H in Hc.
    destruct c as [x|]; [|discriminate].
    exists x. split; [reflexivity|]. apply bool_decide_eq_true in Hc. exact Hc.
  - intros H c Hc. apply list_elem_of_In, H in Hc as (x & -> & Hx).
    apply bool_decide_eq_true. exact Hx.
Qed.

(** X12. [test_status_values_are_valid] holds exactly when [status] is a
    column of strings in which every cell is present and, once in lower
    case, reads [active] or [inactive]; so a missing cell fails the
    test and the case of the values does not matter. A frame without a
    [status] column raises [KeyError], a numeric [status] column
    [AttributeError]. *)
Theorem test_status_values_are_valid_passes
    (str_lower str_repr : string -> string) (df : DataFrame) :
  (test_status_values_are_valid str_lower str_repr df = Ok true
   <-> exists l, df_get df "status" = Some (SStr l) /\
         forall c, c ∈ l ->
           exists x, c = Some x /\
                     (str_lower x = "active" \/ str_lower x = "inactive")) /\
  (df_get df "status" = None ->
   exists e, test_status_values_are_valid str_lower str_repr df = Raise e /\
             exn_class e = "KeyError") /\
  (forall l, df_get df "status" = Some (SNum l) ->
   exists e, test_status_values_are_valid str_lower str_repr df = Raise e /\
             exn_class e = "AttributeError").
Proof.
  unfold test_status_values_are_valid, df_getitem.
  split; [|split].
  - destruct (df_get df "status") as [[l|l]|]; simpl.
    + split; [discriminate|]. intros (l' & H & _). discriminate.
    + split.
      * intros H. injection H as H. exists l. split; [reflexivity|].
        intros c Hc.
        pose proof (proj1 (issubset_true _ _) H (option_map str_lower c)) as Hv.
        destruct Hv as (y & Hy & Hin).
        { apply elem_of_unique. unfold series_lower.
          apply list_elem_of_fmap. exists c. split; [reflexivity|exact Hc]. }
        destruct c as [x|]; [|discriminate]. exists x. split; [reflexivity|].
        simpl in Hy. injection Hy as <-.
        apply elem_of_cons in Hin as [Hin|Hin]; [left; exact Hin|].
        apply list_elem_of_singleton in Hin. right. exact Hin.
      * intros (l' & H & Hall). injection H as <-. f_equal.
        apply issubset_true. intros c Hc.
        apply (proj1 (elem_of_unique _ _)) in Hc. unfold series_lower in Hc.
        apply list_elem_of_fmap in Hc as (c0 & -> & Hc0).
        destruct (Hall c0 Hc0) as (x & -> & Hx).
        exists (str_lower x). split; [reflexivity|].
        destruct Hx as [-> | ->]; [left|right; left].
    + split; [discriminate|]. intros (l' & H & _). discriminate.
  - intros ->. simpl. eauto.
  - intros l ->. simpl. eauto.
Qed.

Lemma test_status_values_are_valid_passes_witness :
  df_get messy_df "status" = Some (SStr [Some "Active"; None; Some "Active"]) /\
  test_status_values_are_valid ascii_lower quote_repr messy_df = Ok false /\
  exists e, test_status_values_are_valid ascii_lower quote_repr
              (numeric_status_df 2) = Raise e /\
            exn_class e = "AttributeError".
Proof.
  split; [reflexivity|]. split; [reflexivity|].
  destruct (test_status_values_are_valid_passes ascii_lower quote_repr
              (numeric_status_df 2)) as (_ & _ & Hnum).
  apply (Hnum (numbers 2)). reflexivity.
Defined.

(** X13. The seven tests of [TestCleanedDataValidation] that call a
    validator all hold exactly when the six checks of the aggregator
    pass and the frame has 24 rows: the test suite asks for what [main]
    asks for, and for the row count 24 where [main] takes 24 or 25. *)
Theorem validator_tests_pass (str_lower str_repr : string -> string)
    (df : DataFrame) :
  Forall (fun t => t = Ok true) (validator_tests str_lower str_repr df)
  <-> all_checks_pass str_lower str_repr df /\ df_len df = 24.
Proof.
  unfold validator_tests, all_checks_pass.
  rewrite !Forall_cons, Forall_nil.
  unfold test_schema_matches_expected, test_row_count_after_deduplication,
    test_status_is_lowercase, test_age_has_no_nulls, test_salary_has_no_nulls,
    test_no_duplicate_rows, test_sorted_by_name.
  rewrite (validate_no_nulls_map df ["age"; "salary"]). cbn [fst forallb].
  rewrite andb_true_r.
  pose proof (validate_row_count_pass_iff df 24 24) as H24.
  pose proof (validate_row_count_pass_iff df 24 25) as H25.
  split.
  - intros (H1 & H2 & H3 & H4 & H5 & H6 & H7 & _).
    injection H1 as H1. injection H2 as H2. injection H4 as H4.
    injection H5 as H5. injection H6 as H6. injection H7 as H7.
    apply H24 in H2.
    split; [|lia]. split; [exact H1|]. split; [apply H25; lia|].
    split.
    { destruct (validate_text_case str_lower df "status") as [[b m]|e];
        [|discriminate]. simpl in H3. injection H3 as ->. eauto. }
    rewrite H4, H5. repeat split; assumption.
  - intros ((H1 & H2 & (m & H3) & H4 & H5 & H6) & Hlen).
    apply andb_prop in H4 as [H4 H4'].
    rewrite H1, H3, H4, H4', H5, H6. simpl.
    assert (H2' : fst (validate_row_count df 24 24) = true) by (apply H24; lia).
    rewrite H2'. repeat split; reflexivity.
Qed.

(** X14. A frame on which a test of [TestMessyDataValidation] holds
    fails the matching test of [TestCleanedDataValidation]: 25 rows are
    not 24, a missing [age] or [salary] fails the null test of that
    column, and a duplicate row fails the duplicate test. *)
Theorem messy_tests_exclude_cleaned_tests
    (str_repr : string -> string) (df : DataFrame) :
  (test_messy_has_expected_rows df = Ok true ->
   test_row_count_after_deduplication df = Ok false) /\
  (test_messy_has_null_ages str_repr df = Ok true ->
   test_age_has_no_nulls df = Ok false) /\
  (test_messy_has_null_salaries str_repr df = Ok true ->
   test_salary_has_no_nulls df = Ok false) /\
  (test_messy_has_duplicates df = Ok true ->
   test_no_duplicate_rows df = Ok false).
Proof.
  unfold test_messy_has_expected_rows, test_row_count_after_deduplication,
    test_messy_has_null_ages, test_age_has_no_nulls,
    test_messy_has_null_salaries, test_salary_has_no_nulls,
    test_messy_has_duplicates, test_no_duplicate_rows, df_getitem.
  split; [|split; [|split]].
  - intros H. injection H as H. apply Nat.eqb_eq in H. f_equal.
    apply not_true_is_false. intros Hp.
    apply validate_row_count_pass_iff in Hp. lia.
  - rewrite validate_no_nulls_single.
    destruct (df_get df "age") as [s|]; simpl; [|discriminate].
    intros H. injection H as ->. reflexivity.
  - rewrite validate_no_nulls_single.
    destruct (df_get df "salary") as [s|]; simpl; [|discriminate].
    intros H. injection H as ->. reflexivity.
  - intros H. injection H as H. unfold validate_no_duplicates. rewrite H.
    reflexivity.
Qed.

Lemma messy_tests_exclude_cleaned_tests_witness :
  test_messy_has_duplicates messy_df = Ok true /\
  test_no_duplicate_rows messy_df = Ok false.
Proof.
  assert (H : test_messy_has_duplicates messy_df = Ok true) by reflexivity.
  split; [exact H|].
  destruct (messy_tests_exclude_cleaned_tests quote_repr messy_df)
    as (_ & _ & _ & Hdup).
  apply Hdup, H.
Defined.

(** ** Edges of the row-count and sort checks *)

(** X15. With bounds out of order, or an upper bound below zero,
    [validate_row_count] fails on every frame. *)
Theorem validate_row_count_empty_range (df : DataFrame) (lo hi : Z) :
  (hi < lo \/ hi < 0)%Z ->
  fst (validate_row_count df lo hi) = false.
Proof.
  intros H. apply not_true_is_false. intros Hp.
  apply validate_row_count_pass_iff in Hp. lia.
Qed.

Lemma validate_row_count_empty_range_witness :
  (24 < 25 \/ 24 < 0)%Z /\
  fst (validate_row_count (cleaned_df 24) 25 24) = false.
Proof.
  assert (H : (24 < 25 \/ 24 < 0)%Z) by (left; lia).
  split; [exact H|].
  apply (validate_row_count_empty_range (cleaned_df 24) 25 24 H).
Defined.

Lemma sort_values_fixed (ascending : bool) (s : series) :
  series_equals (sort_values ascending s) s = true
  <-> if ascending then nondecreasing s else nonincreasing s.
Proof.
  unfold series_equals. rewrite bool_decide_eq_true.
  destruct ascending, s as [l|l]; simpl.
  - rewrite <- (sort_cells_fixed Z.le l). split; [congruence|intros ->; reflexivity].
  - rewrite <- (sort_cells_fixed String.le l). split; [congruence|intros ->; reflexivity].
  - rewrite <- (sort_cells_fixed_descending Z.le l).
    split; [congruence|intros ->; reflexivity].
  - rewrite <- (sort_cells_fixed_descending String.le l).
    split; [congruence|intros ->; reflexivity].
Qed.

Lemma short_list_sorted {A : Type} (R : relation A) (l : list A) :
  length l <= 1 -> Sorted R l.
Proof.
  destruct l as [|x [|y l]]; simpl; intros H; [constructor| |lia].
  constructor; constructor.
Qed.

(** X16. A column of at most one row is in order both ways: on a frame
    without rows, or with a single row, [validate_sorted] passes for
    every column of the frame, ascending and descending. *)
Theorem validate_sorted_short (df : DataFrame) (column : string) (s : series)
    (ascending : bool) :
  df_get df column = Some s ->
  series_len s <= 1 ->
  fst (validate_sorted df column ascending) = true.
Proof.
  intros Hs Hlen. unfold validate_sorted. rewrite Hs.
  assert (H : series_equals (sort_values ascending s) s = true).
  { apply sort_values_fixed. unfold series_len in Hlen.
    destruct ascending, s as [l|l]; simpl in *; rewrite length_map in Hlen;
      apply short_list_sorted, Hlen. }
  rewrite H. reflexivity.
Qed.

Lemma validate_sorted_short_witness :
  df_get (cleaned_df 1) "name" = Some (SStr (letters 1)) /\
  series_len (SStr (letters 1)) <= 1 /\
  fst (validate_sorted (cleaned_df 1) "name" false) = true.
Proof.
  assert (H1 : df_get (cleaned_df 1) "name" = Some (SStr (letters 1)))
    by reflexivity.
  assert (H2 : series_len (SStr (letters 1)) <= 1) by (vm_compute; lia).
  split; [exact H1|]. split; [exact H2|].
  apply (validate_sorted_short (cleaned_df 1) "name" _ false H1 H2).
Defined.

(** X17. [test_department_values] holds exactly when the frame has a
    [department] column whose every cell is one of the four department
    names; a missing cell or a number fails it. Without the column the
    test raises [KeyError]. *)
Theorem test_department_values_passes (str_repr : string -> string)
    (df : DataFrame) :
  (test_department_values str_repr df = Ok true
   <-> exists s, df_get df "department" = Some s /\
         forall c, c ∈ cells s ->
           exists x, c = CStr x /\
                     x ∈ ["Engineering"; "Marketing"; "HR"; "Sales"]) /\
  (df_get df "department" = None ->
   test_department_values str_repr df =
   Raise (Exn "KeyError" (str_repr "department"))).
Proof.
  unfold test_department_values, df_getitem. split.
  - destruct (df_get df "department") as [s|]; simpl.
    + unfold cells_issubset. split.
      * intros H. injection H as H. exists s. split; [reflexivity|].
        intros c Hc. rewrite forallb_forall in H.
        assert (Hu : In c (unique (cells s)))
          by (apply list_elem_of_In, elem_of_unique, Hc).
        apply H in Hu. destruct c as [|z|x]; try discriminate.
        exists x. split; [reflexivity|]. apply bool_decide_eq_true in Hu. exact Hu.
      * intros (s' & Hs & Hall). injection Hs as <-. f_equal.
        apply forallb_forall. intros c Hc.
        apply list_elem_of_In, (proj1 (elem_of_unique _ _)) in Hc.
        destruct (Hall c Hc) as (x & -> & Hx).
        apply bool_decide_eq_true. exact Hx.
    + split; [discriminate|]. intros (s & Hs & _). discriminate.
  - intros ->. reflexivity.
Qed.

Lemma test_department_values_passes_witness :
  df_get messy_df "department" = None /\
  test_department_values quote_repr messy_df = Raise (Exn "KeyError" "'department'").
Proof.
  assert (H : df_get messy_df "department" = None) by reflexivity.
  split; [exact H|].
  apply (proj2 (test_department_values_passes quote_repr messy_df) H).
Defined.
